(** * A shallow embedding of the transport and sink code of multithread_assesment

    The Python sources embedded here are
    - [src/utils/network.py]: [ServerConnection.__read] and [__call__] (socket
      framing and consumer loop), [SMServerConnection.chop_json],
      [SMClientConnection.send], [ClientConnection.send],
      [PipeClientConnection.send];
    - [src/service/model/message.py]: [Message.to_json], [from_json],
      [from_json_str] (with [json.dumps] / [json.loads] for the value subset
      without floats);
    - [src/service/repository/repository.py]: [RepositoryDecorator.append] and
      the [_handle] methods of the concrete sinks, [SQLRepository.__iter__] and
      [__next__]. *)

From Stdlib Require Import List Bool Arith ZArith Lia.
From Stdlib Require Import Strings.String Strings.Ascii Strings.Byte.
From Stdlib Require DecimalPos DecimalN.
Import ListNotations.

(** Python exceptions raised by the embedded code. *)
Inductive exn :=
| RuntimeError        (* "socket connection broken" *)
| MemoryError         (* "Message too long for shared memory buffer" *)
| OSError             (* file or stream I/O failure *)
| ConnectionRefusedError
| BrokenPipeError
| IntegrityError      (* sqlite3: duplicate primary key *)
| JSONDecodeError
| AttributeError
| OperationalError    (* sqlite3: the database file cannot be opened *)
| TypeError.

(** The outcome of a Python call: a returned value or a raised exception. *)
Inductive pyres (A : Type) :=
| Ret (a : A)
| Exc (e : exn).
Arguments Ret {A} a.
Arguments Exc {A} e.

(** ** Socket framing: [ServerConnection.__read] *)
Module Framing.

(** Python [bytes.count] for a one-byte needle. *)
Definition count (b : byte) (chunk : list byte) : nat :=
  List.length (List.filter (Byte.eqb b) chunk).

Definition lbrace : byte := x7b.  (* b'{' *)
Definition rbrace : byte := x7d.  (* b'}' *)




(** Enough fuel for every loop iteration: each iteration consumes at least one
    byte of the socket. *)
Definition fuel (sock : list (list byte)) : nat :=
  S (List.length (List.concat sock)).





End Framing.

(** ** Partitions of a byte stream into non-empty chunks *)
Module Chunks.






End Chunks.

(** ** [SMServerConnection.chop_json] *)
Module Chop.
Local Open Scope Z_scope.

(** Python's index normalisation for a slice bound on a sequence of length
    [n]. *)
Definition slice_bound (n i : Z) : Z :=
  if i <? 0 then Z.max 0 (n + i) else Z.min i n.

(** Python [j[a:b]] on a [str] (step 1). *)
Definition py_slice (j : string) (a b : Z) : string :=
  let n := Z.of_nat (String.length j) in
  let a' := slice_bound n a in
  let b' := slice_bound n b in
  if a' <? b' then substring (Z.to_nat a') (Z.to_nat (b' - a')) j else EmptyString.

(** The [for ind, ch in zip(range(len(j)), j)] loop, returning the final
    [(start_ind, end_ind)]; [break] stops the recursion. *)
Fixpoint scan (ind opening closing start_ind end_ind : Z) (j : string) : Z * Z :=
  match j with
  | EmptyString => (start_ind, end_ind)
  | String ch rest =>
      let start_ind' :=
        if Ascii.eqb ch "{"%char then (if start_ind <? 0 then ind else start_ind)
        else start_ind in
      let opening' := if Ascii.eqb ch "{"%char then opening + 1 else opening in
      if Ascii.eqb ch "}"%char then
        let closing' := closing + 1 in
        if opening' =? closing' then (start_ind', ind)
        else scan (ind + 1) opening' closing' start_ind' end_ind rest
      else scan (ind + 1) opening' closing start_ind' end_ind rest
  end.

Definition chop_json (j : string) : string :=
  let '(start_ind, end_ind) := scan 0 0 0 (-1) (-1) j in
  py_slice j start_ind (end_ind + 1).

End Chop.

(** ** [json.dumps] and [json.loads] on the values they exchange here

    Python's JSON values other than floats: [None], booleans, [int], [str]
    (code points up to 255, one [ascii] each), [list] and [dict] with [str]
    keys.  Floats (and the [NaN] / [Infinity] literals) are not modelled: the
    decoder below rejects them. *)
Module Json.

Local Set Warnings "-register-all".
Inductive jvalue :=
| JNull
| JBool (b : bool)
| JInt (z : Z)
| JStr (s : list ascii)
| JArr (l : list jvalue)
| JObj (kvs : list (list ascii * jvalue)).

Definition str (s : string) : list ascii := list_ascii_of_string s.

(** The double quote and the backslash. *)
Definition dquote : ascii := ascii_of_nat 34.
Definition bslash : ascii := ascii_of_nat 92.

(** *** Encoding, as [json.dumps] with its defaults ([ensure_ascii=True],
    item separator comma-space, key separator colon-space) *)

Definition hex_digit (n : nat) : ascii :=
  match n with
  | 0 => "0" | 1 => "1" | 2 => "2" | 3 => "3" | 4 => "4" | 5 => "5" | 6 => "6"
  | 7 => "7" | 8 => "8" | 9 => "9" | 10 => "a" | 11 => "b" | 12 => "c"
  | 13 => "d" | 14 => "e" | _ => "f"
  end%char.

(** [py_encode_basestring_ascii]: the backslash, the double quote and every
    character outside the printable range 32..126 are escaped, with the short
    forms of [ESCAPE_DCT] where they exist and a four-digit lower-case
    [\u] escape otherwise. *)
Definition escape_char (c : ascii) : list ascii :=
  let n := nat_of_ascii c in
  if n =? 92 then [bslash; bslash]
  else if n =? 34 then [bslash; dquote]
  else if n =? 8 then [bslash; "b"%char]
  else if n =? 12 then [bslash; "f"%char]
  else if n =? 10 then [bslash; "n"%char]
  else if n =? 13 then [bslash; "r"%char]
  else if n =? 9 then [bslash; "t"%char]
  else if (32 <=? n) && (n <=? 126) then [c]
  else [bslash; "u"; "0"; "0"; hex_digit (n / 16); hex_digit (n mod 16)]%char.

Definition dump_str (s : list ascii) : list ascii :=
  dquote :: List.flat_map escape_char s ++ [dquote].

Fixpoint uint_chars (u : Decimal.uint) : list ascii :=
  match u with
  | Decimal.Nil => []
  | Decimal.D0 u => "0"%char :: uint_chars u
  | Decimal.D1 u => "1"%char :: uint_chars u
  | Decimal.D2 u => "2"%char :: uint_chars u
  | Decimal.D3 u => "3"%char :: uint_chars u
  | Decimal.D4 u => "4"%char :: uint_chars u
  | Decimal.D5 u => "5"%char :: uint_chars u
  | Decimal.D6 u => "6"%char :: uint_chars u
  | Decimal.D7 u => "7"%char :: uint_chars u
  | Decimal.D8 u => "8"%char :: uint_chars u
  | Decimal.D9 u => "9"%char :: uint_chars u
  end.

(** Python [int.__repr__]. *)
Definition dump_int (z : Z) : list ascii :=
  (if (z <? 0)%Z then ["-"%char] else []) ++ uint_chars (N.to_uint (Z.abs_N z)).

Fixpoint join_sep (xs : list (list ascii)) : list ascii :=
  match xs with
  | [] => []
  | [x] => x
  | x :: rest => x ++ [","; " "]%char ++ join_sep rest
  end.

Fixpoint dumps (v : jvalue) : list ascii :=
  match v with
  | JNull => str "null"
  | JBool true => str "true"
  | JBool false => str "false"
  | JInt z => dump_int z
  | JStr s => dump_str s
  | JArr l => "["%char :: join_sep (List.map dumps l) ++ ["]"%char]
  | JObj kvs =>
      "{"%char :: join_sep (List.map (fun kv => dump_str (fst kv) ++ [":"; " "]%char
                                                 ++ dumps (snd kv)) kvs)
      ++ ["}"%char]
  end.

(** *** Decoding, as [json.loads] ([json.decoder] with [strict=True]) *)

(** [WHITESPACE]: space, tab, newline, carriage return. *)
Definition is_ws (c : ascii) : bool :=
  let n := nat_of_ascii c in (n =? 32) || (n =? 9) || (n =? 10) || (n =? 13).

Fixpoint skip_ws (s : list ascii) : list ascii :=
  match s with
  | c :: r => if is_ws c then skip_ws r else s
  | [] => []
  end.

Definition is_digit (c : ascii) : bool :=
  let n := nat_of_ascii c in (48 <=? n) && (n <=? 57).

Definition hex_value (c : ascii) : option nat :=
  let n := nat_of_ascii c in
  if (48 <=? n) && (n <=? 57) then Some (n - 48)
  else if (97 <=? n) && (n <=? 102) then Some (n - 87)
  else if (65 <=? n) && (n <=? 70) then Some (n - 55)
  else None.

(** [_decode_uXXXX] on four hexadecimal digits. *)
Definition hex4 (a b c d : ascii) : option nat :=
  match hex_value a, hex_value b, hex_value c, hex_value d with
  | Some x, Some y, Some z, Some w => Some (((x * 16 + y) * 16 + z) * 16 + w)
  | _, _, _, _ => None
  end.

(** [BACKSLASH]: the one-character escapes. *)
Definition unescape (e : ascii) : option ascii :=
  let n := nat_of_ascii e in
  if n =? 34 then Some dquote
  else if n =? 92 then Some bslash
  else if Ascii.eqb e "/"%char then Some "/"%char
  else if Ascii.eqb e "b"%char then Some (ascii_of_nat 8)
  else if Ascii.eqb e "f"%char then Some (ascii_of_nat 12)
  else if Ascii.eqb e "n"%char then Some (ascii_of_nat 10)
  else if Ascii.eqb e "r"%char then Some (ascii_of_nat 13)
  else if Ascii.eqb e "t"%char then Some (ascii_of_nat 9)
  else None.

Definition cons_str (c : ascii) (o : option (list ascii * list ascii))
  : option (list ascii * list ascii) :=
  match o with
  | Some (x, r) => Some (c :: x, r)
  | None => None
  end.

(** [py_scanstring], after the opening quote: the decoded string and the
    input after the closing quote.  A [\u] escape above 255 falls outside the
    modelled characters and is rejected. *)
Fixpoint parse_string (s : list ascii) : option (list ascii * list ascii) :=
  match s with
  | [] => None
  | c :: r =>
      let n := nat_of_ascii c in
      if n =? 34 then Some ([], r)
      else if n =? 92 then
        match r with
        | [] => None
        | e :: r1 =>
            if Ascii.eqb e "u"%char then
              match r1 with
              | h1 :: h2 :: h3 :: h4 :: r2 =>
                  match hex4 h1 h2 h3 h4 with
                  | Some code =>
                      if code <? 256 then cons_str (ascii_of_nat code) (parse_string r2)
                      else None
                  | None => None
                  end
              | _ => None
              end
            else
              match unescape e with
              | Some ch => cons_str ch (parse_string r1)
              | None => None
              end
        end
      else if n <? 32 then None
      else cons_str c (parse_string r)
  end.

Definition digit_of (c : ascii) : option (Decimal.uint -> Decimal.uint) :=
  match nat_of_ascii c with
  | 48 => Some Decimal.D0 | 49 => Some Decimal.D1 | 50 => Some Decimal.D2
  | 51 => Some Decimal.D3 | 52 => Some Decimal.D4 | 53 => Some Decimal.D5
  | 54 => Some Decimal.D6 | 55 => Some Decimal.D7 | 56 => Some Decimal.D8
  | 57 => Some Decimal.D9 | _ => None
  end.

(** The longest run of decimal digits. *)
Fixpoint take_digits (s : list ascii) : Decimal.uint * list ascii :=
  match s with
  | [] => (Decimal.Nil, [])
  | c :: r =>
      match digit_of c with
      | Some d => let '(u, r') := take_digits r in (d u, r')
      | None => (Decimal.Nil, s)
      end
  end.

(** Whether the optional fraction or exponent of [NUMBER_RE] matches, which
    makes the number a float. *)
Definition float_follows (r : list ascii) : bool :=
  match r with
  | c :: r' =>
      if Ascii.eqb c "."%char then
        match r' with d :: _ => is_digit d | [] => false end
      else if Ascii.eqb c "e"%char || Ascii.eqb c "E"%char then
        match r' with
        | d :: r'' =>
            is_digit d ||
            ((Ascii.eqb d "+"%char || Ascii.eqb d "-"%char) &&
             match r'' with d2 :: _ => is_digit d2 | [] => false end)
        | [] => false
        end
      else false
  | [] => false
  end.

(** The integer part of [NUMBER_RE], [0|[1-9][0-9]*], without its sign. *)
Definition parse_nonneg (s : list ascii) : option (N * list ascii) :=
  match s with
  | c :: r =>
      if Ascii.eqb c "0"%char then Some (0%N, r)
      else if is_digit c then let '(u, r') := take_digits s in Some (N.of_uint u, r')
      else None
  | [] => None
  end.

Definition parse_number (s : list ascii) : option (Z * list ascii) :=
  let '(neg, s1) :=
    match s with
    | c :: r => if Ascii.eqb c "-"%char then (true, r) else (false, s)
    | [] => (false, s)
    end in
  match parse_nonneg s1 with
  | Some (n, r) =>
      if float_follows r then None
      else Some ((if neg then - Z.of_N n else Z.of_N n)%Z, r)
  | None => None
  end.

Definition key_eqb (k k' : list ascii) : bool :=
  if List.list_eq_dec ascii_dec k k' then true else false.

(** [dict(pairs)]: a repeated key keeps its first position and its last
    value. *)
Fixpoint dict_set {A} (d : list (list ascii * A)) (k : list ascii) (v : A)
  : list (list ascii * A) :=
  match d with
  | [] => [(k, v)]
  | (k', v') :: d' => if key_eqb k k' then (k', v) :: d' else (k', v') :: dict_set d' k v
  end.

Definition py_dict {A} (pairs : list (list ascii * A)) : list (list ascii * A) :=
  List.fold_left (fun d kv => dict_set d (fst kv) (snd kv)) pairs [].

Fixpoint strip_prefix (p s : list ascii) : option (list ascii) :=
  match p, s with
  | [], _ => Some s
  | c :: p', d :: s' => if Ascii.eqb c d then strip_prefix p' s' else None
  | _ :: _, [] => None
  end.

(** The loop of [JSONArray] after its first element starts; [pv] parses one
    value ([scan_once]). *)
Fixpoint parse_elems (pv : list ascii -> option (jvalue * list ascii)) (k : nat)
         (s : list ascii) : option (list jvalue * list ascii) :=
  match k with
  | 0 => None
  | S k' =>
      match pv s with
      | None => None
      | Some (v, r) =>
          match skip_ws r with
          | c :: r' =>
              if Ascii.eqb c "]"%char then Some ([v], r')
              else if Ascii.eqb c ","%char then
                match parse_elems pv k' (skip_ws r') with
                | Some (vs, r'') => Some (v :: vs, r'')
                | None => None
                end
              else None
          | [] => None
          end
      end
  end.

(** The loop of [JSONObject] from the first key on. *)
Fixpoint parse_members (pv : list ascii -> option (jvalue * list ascii)) (k : nat)
         (s : list ascii) : option (list (list ascii * jvalue) * list ascii) :=
  match k with
  | 0 => None
  | S k' =>
      match s with
      | c :: r =>
          if nat_of_ascii c =? 34 then
            match parse_string r with
            | None => None
            | Some (key, r1) =>
                match skip_ws r1 with
                | c1 :: r2 =>
                    if Ascii.eqb c1 ":"%char then
                      match pv (skip_ws r2) with
                      | None => None
                      | Some (v, r3) =>
                          match skip_ws r3 with
                          | c2 :: r4 =>
                              if Ascii.eqb c2 "}"%char then Some ([(key, v)], r4)
                              else if Ascii.eqb c2 ","%char then
                                match parse_members pv k' (skip_ws r4) with
                                | Some (kvs, r5) => Some ((key, v) :: kvs, r5)
                                | None => None
                                end
                              else None
                          | [] => None
                          end
                      end
                    else None
                | [] => None
                end
            end
          else None
      | [] => None
      end
  end.

(** [scan_once]: one value at the head of the input.  [fuel] bounds the
    nesting depth; the element loops are bounded by the input length. *)
Fixpoint parse_value (fuel : nat) (s : list ascii) : option (jvalue * list ascii) :=
  match fuel with
  | 0 => None
  | S f =>
      match s with
      | [] => None
      | c :: r =>
          if nat_of_ascii c =? 34 then
            match parse_string r with
            | Some (x, r') => Some (JStr x, r')
            | None => None
            end
          else if Ascii.eqb c "{"%char then
            let r0 := skip_ws r in
            match r0 with
            | c1 :: r1 =>
                if Ascii.eqb c1 "}"%char then Some (JObj [], r1)
                else match parse_members (parse_value f) (List.length r0) r0 with
                     | Some (kvs, r') => Some (JObj (py_dict kvs), r')
                     | None => None
                     end
            | [] => None
            end
          else if Ascii.eqb c "["%char then
            let r0 := skip_ws r in
            match r0 with
            | c1 :: r1 =>
                if Ascii.eqb c1 "]"%char then Some (JArr [], r1)
                else match parse_elems (parse_value f) (List.length r0) r0 with
                     | Some (vs, r') => Some (JArr vs, r')
                     | None => None
                     end
            | [] => None
            end
          else
            match strip_prefix (str "null") s with
            | Some r' => Some (JNull, r')
            | None =>
            match strip_prefix (str "true") s with
            | Some r' => Some (JBool true, r')
            | None =>
            match strip_prefix (str "false") s with
            | Some r' => Some (JBool false, r')
            | None =>
                match parse_number s with
                | Some (z, r') => Some (JInt z, r')
                | None => None
                end
            end end end
      end
  end.

(** [json.loads]: one value, surrounded by whitespace only ([None] is a
    [JSONDecodeError]). *)
Definition loads (s : list ascii) : option jvalue :=
  match parse_value (S (List.length s)) (skip_ws s) with
  | Some (v, r) => match skip_ws r with [] => Some v | _ => None end
  | None => None
  end.





End Json.

(** ** [Message] ([src/service/model/message.py]) *)
Module Msg.
Import Json.

(** The instance attributes of a [Message], in the order [__init__] creates
    them; Python does not constrain their types. *)
Record Message := mk_message {
  id : jvalue;
  name : jvalue;
  data : jvalue;
  time_stamp : jvalue
}.

(** [Message(id, name, data, time_stamp=None)]; [now] is the formatted
    current time that [set_data] stores when no time stamp is given. *)
Definition new_message (now : list ascii) (id name data : jvalue)
  (time_stamp : option jvalue) : Message :=
  mk_message id name data
    (match time_stamp with Some t => t | None => JStr now end).

(** [self.__dict__]. *)
Definition msg_dict (m : Message) : list (list ascii * jvalue) :=
  [(str "id", id m); (str "name", name m); (str "data", data m);
   (str "time_stamp", time_stamp m)].

(** [setattr(self, key, val)] for a key of [self.__dict__]. *)
Definition set_field (m : Message) (key : list ascii) (v : jvalue) : Message :=
  if key_eqb key (str "id") then mk_message v (name m) (data m) (time_stamp m)
  else if key_eqb key (str "name") then mk_message (id m) v (data m) (time_stamp m)
  else if key_eqb key (str "data") then mk_message (id m) (name m) v (time_stamp m)
  else if key_eqb key (str "time_stamp") then mk_message (id m) (name m) (data m) v
  else m.

Definition is_attr (key : list ascii) : bool :=
  List.existsb (key_eqb key) (List.map fst (msg_dict (mk_message JNull JNull JNull JNull))).

(** [Message.to_json]. *)
Definition to_json (m : Message) : list ascii := dumps (JObj (msg_dict m)).

(** The body of the loop of [Message.from_json]:
    [if key in attrs: setattr(self, key, val)]. *)
Definition from_json_step (m : Message) (kv : list ascii * jvalue) : Message :=
  if is_attr (fst kv) then set_field m (fst kv) (snd kv) else m.

(** [Message.from_json]: [json.loads], then the loop over [jdict.items()];
    a document that is not an object has no [items]. *)
Definition from_json (m : Message) (j : list ascii) : pyres Message :=
  match loads j with
  | None => Exc JSONDecodeError
  | Some (JObj kvs) => Ret (List.fold_left from_json_step kvs m)
  | Some _ => Exc AttributeError
  end.

(** [Message.from_json_str]. *)
Definition from_json_str (now : list ascii) (j : list ascii) : pyres Message :=
  from_json (new_message now (JInt 42) (JStr (str "unknown")) (JInt 1) None) j.

(** The control message convention: [data is None]. *)
Definition is_sentinel (m : Message) : bool :=
  match data m with JNull => true | _ => false end.

End Msg.

(** ** The sink chain ([src/service/repository/repository.py]) *)
Module Repo.
Import Json Msg.

(** A file opened in append mode, as a list of rows; [writable = false]
    when [open(filename, 'a')] raises (missing directory, no permission). *)
Record file := mk_file { writable : bool; rows : list (list jvalue) }.

Definition add_rows (f : file) (rs : list (list jvalue)) : file :=
  mk_file (writable f) (rows f ++ rs).

(** [list(message.__dict__.keys())] and [list(message.__dict__.values())]. *)
Definition keys_row (m : Message) : list jvalue :=
  List.map (fun kv => JStr (fst kv)) (msg_dict m).
Definition values_row (m : Message) : list jvalue :=
  List.map snd (msg_dict m).

(** The SQLite database file: whether it can be opened, and the rows of the
    table [sensor_messages] keyed by [message_id INTEGER PRIMARY KEY] (an
    alias of SQLite's [rowid]). The columns the table gets are not modelled. *)
Record sqldb := mk_db { db_ok : bool; db_rows : list (Z * list jvalue) }.

(** [SQLRepository.to_sql_string]; [raise NotImplemented(...)] raises a
    [TypeError], [NotImplemented] not being callable. A Python [bool] is an
    [int]. *)
Definition to_sql_string (v : jvalue) : pyres string :=
  match v with
  | JStr _ => Ret "TEXT"%string
  | JInt _ | JBool _ => Ret "INTEGER"%string
  | _ => Exc TypeError
  end.

(** The loop of [_create_table] over the values reaches its end. *)
Definition has_sql_types (m : Message) : bool :=
  List.forallb (fun v => match to_sql_string v with Ret _ => true | Exc _ => false end)
    (values_row m).

(** The state of a concrete decorator, with the attributes its [_handle]
    reads and writes. [Screen] is a [ScreenRepository(repository, where)]
    built directly: the factory [screen_dump] passes the two arguments the
    other way round. *)
Inductive sink :=
| Screen (out : file)
| CSV (f : file) (header_written : bool)
| SQL (db : sqldb) (table_created : bool) (rowid : Z)
| Plot (stop_event : bool) (message_queue : list (list ascii)).

(** [ScreenRepository._handle]: one line of the values to [self.file]. *)
Definition screen_handle (out : file) (m : Message) : sink * option exn :=
  if writable out then (Screen (add_rows out [values_row m]), None)
  else (Screen out, Some OSError).

(** [CSVRepository._handle]. *)
Definition csv_handle (f : file) (hw : bool) (m : Message) : sink * option exn :=
  if is_sentinel m then (CSV f hw, None)
  else if negb (writable f) then (CSV f hw, Some OSError)
  else if hw then (CSV (add_rows f [values_row m]) true, None)
  else (CSV (add_rows f [keys_row m; values_row m]) true, None).

(** [SQLRepository._create_table] followed by the [INSERT]: [_create_table]
    raises when a value has no SQL type; the [INSERT] raises
    [sqlite3.IntegrityError] when the key [self.rowid] is already taken, before
    [self.rowid += 1]. *)
Definition sql_handle (db : sqldb) (tc : bool) (rid : Z) (m : Message)
  : sink * option exn :=
  if is_sentinel m then (SQL db tc rid, None)
  else if negb (db_ok db) then (SQL db tc rid, Some OperationalError)
  else
    let created :=
      if tc then None else if has_sql_types m then None else Some TypeError in
    match created with
    | Some e => (SQL db tc rid, Some e)
    | None =>
        if List.existsb (fun r => Z.eqb (fst r) rid) (db_rows db)
        then (SQL db true rid, Some IntegrityError)
        else (SQL (mk_db (db_ok db) (db_rows db ++ [(rid, values_row m)])) true (rid + 1), None)
    end.

(** [PlotRepository._handle]. *)
Definition plot_handle (stop : bool) (q : list (list ascii)) (m : Message)
  : sink * option exn :=
  if is_sentinel m then (Plot true q, None)
  else (Plot stop (q ++ [to_json m]), None).

Definition handle (s : sink) (m : Message) : sink * option exn :=
  match s with
  | Screen out => screen_handle out m
  | CSV f hw => csv_handle f hw m
  | SQL db tc rid => sql_handle db tc rid m
  | Plot stop q => plot_handle stop q m
  end.

(** A [Repository] and the decorators wrapped around it. *)
Inductive repository :=
| Base (message_list : list Message)
| Deco (s : sink) (repo : repository).

(** [Repository.append] and [RepositoryDecorator.append]: the decorated
    object first, then [self._handle(message)]; an exception propagates. *)
Fixpoint append (r : repository) (m : Message) : repository * option exn :=
  match r with
  | Base l => (Base (l ++ [m]), None)
  | Deco s inner =>
      let (inner', e) := append inner m in
      match e with
      | Some _ => (Deco s inner', e)
      | None => let (s', e') := handle s m in (Deco s' inner', e')
      end
  end.

(** [Repository().d1(...).d2(...)...]: each factory call wraps the chain built
    so far, so the list gives the sinks innermost first. *)
Definition chain_from (r : repository) (sinks : list sink) : repository :=
  List.fold_left (fun r s => Deco s r) sinks r.

Definition chain (l : list Message) (sinks : list sink) : repository :=
  chain_from (Base l) sinks.

(** Successive [append] calls by one thread; an exception ends the thread. *)
Fixpoint append_all (r : repository) (ms : list Message) : repository * option exn :=
  match ms with
  | [] => (r, None)
  | m :: ms' =>
      let (r', e) := append r m in
      match e with
      | Some _ => (r', e)
      | None => append_all r' ms'
      end
  end.





(** The rows a CSV file receives from a sequence of appends: a header before
    the first row, one row per message whose data is not [None]. *)
Definition csv_rows (ms : list Message) : list (list jvalue) :=
  match List.filter (fun m => negb (is_sentinel m)) ms with
  | [] => []
  | m0 :: _ => keys_row m0 :: List.map values_row (List.filter (fun m => negb (is_sentinel m)) ms)
  end.

End Repo.

(** ** The producer endpoints ([src/utils/network.py]) *)
Module Producers.
Import Json Msg.

(** [str.encode()]: UTF-8, one byte per character on the ASCII text that
    [json.dumps] produces. *)
Definition encode (s : list ascii) : list byte := List.map byte_of_ascii s.

(** What a Python call leaves behind: a returned value, an exception, or a
    call that is still waiting. *)
Inductive pyval := PyBool (b : bool) | PyNone.
Inductive outcome := Returned (v : pyval) | Raised (e : exn) | Waits.

(** [SMClientConnection]: the one-byte flag and the 2048-byte buffer. *)
Record sm_client := mk_sm { new_data_flag : byte; message_buf : list byte }.

Definition sm_init : sm_client := mk_sm x00 (List.repeat x00 2048).

(** [SMClientConnection.send]. While the flag is set it sleeps until the
    consumer clears it, which the model leaves to the consumer; otherwise
    [buf[:msglen] = msg] and the flag is set. The method has no [return]. *)
Definition sm_send (st : sm_client) (d : Message) : sm_client * outcome :=
  if negb (Byte.eqb (new_data_flag st) x00) then (st, Waits)
  else
    let msg := encode (to_json d) in
    if List.length (message_buf st) <? List.length msg then (st, Raised MemoryError)
    else (mk_sm x01 (msg ++ List.skipn (List.length msg) (message_buf st)), Returned PyNone).

(** [ClientConnection]: [self.connected] and [self.available]. *)
Record sock_client := mk_client { connected : bool; available : bool }.

(** The loop of [ClientConnection.send] over the bytes still to send; each
    [self.sckt.send] answers the number of bytes sent or raises, and [answers]
    lists the operating system's answers in order. *)
Fixpoint send_loop (st : sock_client) (remaining : nat) (answers : list (pyres nat))
  : sock_client * outcome :=
  if remaining =? 0 then (st, Returned (PyBool true))
  else match answers with
       | [] => (st, Waits)
       | Exc e :: _ => (st, Raised e)
       | Ret sent :: answers' =>
           if sent =? 0 then (mk_client (connected st) false, Returned (PyBool false))
           else send_loop st (remaining - sent) answers'
       end.

(** [ClientConnection.send]; [connect_result] is what [self.sckt.connect]
    does when it is called: [Some e] when it raises [e]. *)
Definition client_send (st : sock_client) (connect_result : option exn)
  (answers : list (pyres nat)) (d : Message) : sock_client * outcome :=
  let msglen := List.length (encode (to_json d)) in
  if connected st then send_loop st msglen answers
  else match connect_result with
       | Some e => (st, Raised e)
       | None => send_loop (mk_client true (available st)) msglen answers
       end.

(** [PipeClientConnection.send]; [pipe_result] is what [self.pipe.send]
    does: [Some e] when it raises [e]. *)
Definition pipe_send (pipe_result : option exn) (d : Message) : outcome :=
  match pipe_result with
  | Some e => Raised e
  | None => Returned (PyBool true)
  end.

End Producers.

(** ** The socket consumer loop: [ServerConnection.__call__] and [__read] *)
Module Consumer.
Import Framing.

(** What a call to [self.sckt.recv] that is waiting gets next: bytes, [b'']
    once the peer has closed the connection, or nothing yet. *)
Inductive recv_event := Data (chunk : list byte) | PeerClosed | NoData.

(** Where the thread is: at the top of the [while True] loop of [__call__],
    inside [__read] waiting in [recv] with the bracket counts and chunks read
    so far, after the [break], or ended by an exception. *)
Inductive cstate :=
| AtTop
| Reading (o c : nat) (chunks : list (list byte))
| Exited
| Crashed (e : exn).

(** One step of the thread, given [stop_event.is_set()] and what [recv]
    gets. Both loops of [__read] read on while [o = 0] or [c < o]; a read
    that returns hands the joined chunks to
    [repository.append(Message.from_json_str(...))], recorded in [delivered]. *)
Definition step (stop : bool) (ev : recv_event) (s : cstate) (delivered : list (list byte))
  : cstate * list (list byte) :=
  match s with
  | AtTop => if stop then (Exited, delivered) else (Reading 0 0 [], delivered)
  | Reading o c chunks =>
      match ev with
      | NoData => (s, delivered)
      | PeerClosed => (Crashed RuntimeError, delivered)
      | Data ch =>
          let o' := o + count lbrace ch in
          let c' := c + count rbrace ch in
          if (o' =? 0) || (c' <? o') then (Reading o' c' (chunks ++ [ch]), delivered)
          else (AtTop, delivered ++ [List.concat (chunks ++ [ch])])
      end
  | Exited | Crashed _ => (s, delivered)
  end.

(** The thread over a sequence of steps. *)
Fixpoint run (ticks : list (bool * recv_event)) (s : cstate) (delivered : list (list byte))
  : cstate * list (list byte) :=
  match ticks with
  | [] => (s, delivered)
  | (stop, ev) :: ticks' =>
      let (s', delivered') := step stop ev s delivered in run ticks' s' delivered'
  end.

End Consumer.

(** ** Brace structure of a text, as [chop_json] and [__read] count it *)
Module Balance.
Import Json.
Local Open Scope Z_scope.

Definition is_brace (c : ascii) : bool := Ascii.eqb c "{"%char || Ascii.eqb c "}"%char.


(** The nesting depth [opening - closing] after one more character. *)
Definition depth_step (d : Z) (c : ascii) : Z :=
  if Ascii.eqb c "{"%char then d + 1 else if Ascii.eqb c "}"%char then d - 1 else d.


(** From depth [d], the depth first comes back to [0] at the last character
    of [s]. *)
Fixpoint balanced_from (d : Z) (s : list ascii) : bool :=
  match s with
  | [] => false
  | c :: r =>
      let d' := depth_step d c in
      if d' =? 0 then match r with [] => true | _ => false end
      else balanced_from d' r
  end.

(** A [{...}] span whose first ['{'] is matched by its last character. *)
Definition first_balanced (s : list ascii) : bool :=
  match s with
  | c :: r => Ascii.eqb c "{"%char && balanced_from 1 r
  | [] => false
  end.


End Balance.

(** ** The shared-memory consumer: [SMServerConnection.run]
    ([src/utils/network.py]) *)
Module SMServer.
Import Json Msg Repo Producers Chop.

(** [str(self.message.buf, 'utf8')] on a buffer of ASCII bytes, one character
    per byte; a byte from 128 up starts a multi-byte sequence, whose decoding
    is outside the model ([None]). *)
Definition decode_utf8 (bs : list byte) : option string :=
  if List.forallb (fun b => Nat.ltb (Byte.to_nat b) 128) bs
  then Some (string_of_list_ascii (List.map ascii_of_byte bs))
  else None.

(** Where the thread is: at the top of the [while True] loop, in the inner
    [while not self.new_data_flag.buf[0]] loop, after a [break], or ended by
    an exception that [run] does not catch. *)
Inductive sm_thread := SMTop | SMWaiting | SMExited | SMCrashed (e : exn).

(** One step of [SMServerConnection.run], on the shared flag and buffer
    (the [sm_client] record, which both ends map) and the repository. The
    stop event is looked at only at the top of the loop; the inner loop polls
    the flag. A set flag makes the thread decode the whole buffer, cut it with
    [chop_json], build a [Message] with [from_json_str], append it, and clear
    the flag. *)
Definition sm_server_step (stop : bool) (now : list ascii) (s : sm_thread)
  (st : sm_client) (r : repository) : option (sm_thread * sm_client * repository) :=
  match s with
  | SMTop => Some (if stop then SMExited else SMWaiting, st, r)
  | SMWaiting =>
      if Byte.eqb (new_data_flag st) x00 then Some (SMWaiting, st, r)
      else match decode_utf8 (message_buf st) with
           | None => None
           | Some j =>
               match from_json_str now (list_ascii_of_string (chop_json j)) with
               | Exc e => Some (SMCrashed e, st, r)
               | Ret msg =>
                   let (r', err) := append r msg in
                   match err with
                   | Some e => Some (SMCrashed e, st, r')
                   | None => Some (SMTop, mk_sm x00 (message_buf st), r')
                   end
               end
           end
  | SMExited | SMCrashed _ => Some (s, st, r)
  end.



End SMServer.

(** ** The pipe channel: [PipeClientConnection] and [PipeServerConnection]
    ([src/utils/network.py]) *)
Module PipeChannel.
Import Json Msg Repo Producers.

(** The connection pair of [multiprocessing.Pipe()]: the strings sent and
    not yet received, in order, and whether a handle of the client end is
    still open. *)
Record pipe := mk_pipe { in_flight : list (list ascii); client_open : bool }.

(** [PipeClientConnection.send]: [self.pipe.send(d.to_json())], which raises
    [OSError] on a closed handle, then [return True]. *)
Definition pipe_client_send (p : pipe) (d : Message) : pipe * outcome :=
  if client_open p then (mk_pipe (in_flight p ++ [to_json d]) true, pipe_send None d)
  else (p, pipe_send (Some OSError) d).

(** [PipeClientConnection.close]. *)
Definition pipe_client_close (p : pipe) : pipe := mk_pipe (in_flight p) false.





End PipeChannel.

(** ** More of [src/service/repository/repository.py] *)
Module RepoExtra.
Import Json Msg Repo.

(** [self.message_list] of the innermost [Repository]: a decorator has no
    list of its own and hands every message down with [self.repo.append]. *)
Fixpoint message_list (r : repository) : list Message :=
  match r with
  | Base l => l
  | Deco _ inner => message_list inner
  end.


(** [CSVRepository.__iter__] on the file [self.filename]: [next(cr)] skips
    the first row, and [Message.message_from_list], which [Message] does not
    define, raises [AttributeError] on the first row after it. A file that
    cannot be read, or has no row (where [next(cr)] raises [StopIteration],
    or the file does not exist yet), is outside the model ([None]). *)
Definition csv_iter (f : file) : option (pyres (list Message)) :=
  if negb (writable f) then None
  else match rows f with
       | [] => None
       | [_] => Some (Ret [])
       | _ :: _ :: _ => Some (Exc AttributeError)
       end.

End RepoExtra.

(** ** The sensor loop: [Sensor.run] and [Sensor.acquire]
    ([src/sensors/base_sensor.py]) *)
Module SensorRun.
Import Json Msg Producers.

(** [Message.set_data(data, time_stamp)]; [now] is the formatted current
    time, taken when no time stamp is given. *)
Definition set_data (now : list ascii) (m : Message) (v : jvalue) (ts : option jvalue)
  : Message :=
  mk_message (id m) (name m) v (match ts with Some t => t | None => JStr now end).

(** The calls [Sensor.run] makes on its connection object. *)
Inductive conn_call := CSend (m : Message) | CClose.

(** How a run ends: [break] after the stop event, [break] on an unavailable
    connection, an exception from [send], a [send] that does not return, or
    not yet. *)
Inductive sensor_end := SStopped | SUnavailable | SRaised (e : exn) | SWaits | SRunning.

Section Run.
(** The connection: any of [ClientConnection], [SMClientConnection] and
    [PipeClientConnection], through [is_available], [send] and [close]. *)
Context {C : Type}.
Variable is_available : C -> bool.
Variable send : C -> Message -> C * outcome.
Variable close : C -> C.

(** [Sensor.run]. Each tick is one pass of [while True] after
    [time.sleep(self.dt)]: whether the stop event is set, what [self.probe()]
    returns, and the current time. [acquire] updates [self.message] in
    place, and the value [send] returns is ignored. *)
Fixpoint sensor_run (ticks : list (bool * jvalue * list ascii)) (msg : Message) (c : C)
  (calls : list conn_call) : sensor_end * Message * C * list conn_call :=
  match ticks with
  | [] => (SRunning, msg, c, calls)
  | (stop, v, now) :: ticks' =>
      if stop then (SStopped, msg, close c, calls ++ [CClose])
      else
        let msg' := set_data now msg v None in
        if negb (is_available c) then (SUnavailable, msg', c, calls)
        else
          let (c', o) := send c msg' in
          match o with
          | Returned _ => sensor_run ticks' msg' c' (calls ++ [CSend msg'])
          | Raised e => (SRaised e, msg', c', calls ++ [CSend msg'])
          | Waits => (SWaits, msg', c', calls ++ [CSend msg'])
          end
  end.

End Run.

End SensorRun.

(** ** Inputs used in the proofs *)
Module Samples.
Import Json Msg Repo.

(** [Message(0, 'Sensor-1', -49, '2023')]. *)
Definition sample_message : Message :=
  mk_message (JInt 0) (JStr (str "Sensor-1")) (JInt (-49)) (JStr (str "2023")).


(** The stop message a sensor sends when it shuts down: data [None]. *)
Definition sentinel_message : Message :=
  mk_message (JInt 0) (JStr (str "Sensor-1")) JNull (JStr (str "2023")).


(** A [Message] whose name is [k] letters: its JSON text is [54 + k]
    characters. *)
Definition padded_message (k : nat) : Message :=
  mk_message (JInt 0) (JStr (List.repeat "a"%char k)) (JInt 1) (JStr (str "2023")).

(** A file that can be opened in append mode, and one that cannot. *)
Definition no_file : file := mk_file true [].
Definition bad_file : file := mk_file false [].


End Samples.

(* ================================================================ *)
(** * Proofs *)

(** ** Socket framing *)
Module FramingProofs.
Import Framing Chunks.







End FramingProofs.

(** ** [chop_json] *)
Module ChopProofs.
Import Chop.

(** C3 (code bug): on ["}{{}}"], which contains the balanced spans ["{}"] and
    ["{{}}"], [chop_json] counts the stray ['}'] in front of the first ['{'],
    stops at the first inner ['}'] and returns the unbalanced ["{{}"];
    chopping that again yields the empty string, so [chop_json] is not
    idempotent there. *)
Theorem C3_chop_json_not_idempotent :
  chop_json "}{{}}" = "{{}"%string /\
  chop_json (chop_json "}{{}}") = EmptyString /\
  chop_json (chop_json "}{{}}") <> chop_json "}{{}}".
Proof.
  split; [reflexivity|]. split; [reflexivity|].
  vm_compute. discriminate.
Qed.

End ChopProofs.

(** ** [json.loads] inverts [json.dumps] *)
Module JsonProofs.
Import Json.








































End JsonProofs.

(** ** Message encoding and decoding *)
Module MsgProofs.
Import Json Msg JsonProofs Samples.












End MsgProofs.

(** ** The sink chain *)
Module RepoProofs.
Import Json Msg Repo Samples.

Lemma chain_from_app r xs ys : chain_from r (xs ++ ys) = chain_from (chain_from r xs) ys.
Proof. unfold chain_from. apply fold_left_app. Qed.

Lemma chain_from_cons r s ys : chain_from r (s :: ys) = chain_from (Deco s r) ys.
Proof. reflexivity. Qed.

(** Sinks that handle [m] without raising let it through to the next one. *)
Lemma append_chain_ok m pre pre' :
  Forall2 (fun s s' => handle s m = (s', None)) pre pre' ->
  forall r r', append r m = (r', None) ->
  append (chain_from r pre) m = (chain_from r' pre', None).
Proof.
  induction 1 as [|s s' pre pre' Hs _ IH]; intros r r' Hr; [exact Hr|].
  rewrite !chain_from_cons. apply IH. cbn [append]. rewrite Hr, Hs. reflexivity.
Qed.

(** An exception raised inside the chain leaves every outer sink untouched. *)
Lemma append_chain_exc m e post :
  forall r r', append r m = (r', Some e) ->
  append (chain_from r post) m = (chain_from r' post, Some e).
Proof.
  induction post as [|s post IH]; intros r r' Hr; [exact Hr|].
  rewrite !chain_from_cons. apply IH. cbn [append]. rewrite Hr. reflexivity.
Qed.

(** Claim C1, counterexample: [Repository().csv(f1).csv(f2).sql(db)] where
    [f2] cannot be opened. [append(m)] stores [m] in the base list and writes
    it to [f1], then [open(f2, 'a')] raises [OSError]: the SQL database stays
    empty. *)
Lemma C1_third_sink_misses_message :
  append (chain [] [CSV no_file false; CSV bad_file false; SQL (mk_db true []) false 0])
    sample_message
  = (chain [sample_message]
       [CSV (mk_file true [keys_row sample_message; values_row sample_message]) true;
        CSV bad_file false; SQL (mk_db true []) false 0],
     Some OSError).
Proof. vm_compute. reflexivity. Qed.

(** Claim C1, as the code does it: [append(m)] hands [m] to the sinks in the
    order the chain was built (the base list first). If every sink before
    [s] handles [m] and [s] raises [e], then [append] raises [e], and the
    sinks after [s] are left as they were: they never observe [m]. *)
Theorem C1_failure_stops_later_sinks l pre pre' s s_fail e post m :
  Forall2 (fun s s' => handle s m = (s', None)) pre pre' ->
  handle s m = (s_fail, Some e) ->
  append (chain l (pre ++ s :: post)) m
  = (chain (l ++ [m]) (pre' ++ s_fail :: post), Some e).
Proof.
  intros Hpre Hs. unfold chain. rewrite !chain_from_app, !chain_from_cons.
  apply append_chain_exc. cbn [append].
  rewrite (append_chain_ok m pre pre' Hpre (Base l) (Base (l ++ [m])) eq_refl), Hs.
  reflexivity.
Qed.

Lemma C1_failure_stops_later_sinks_witness :
  append (chain [] [CSV no_file false; CSV bad_file false; CSV no_file false]) sample_message
  = (chain [sample_message]
       [CSV (mk_file true [keys_row sample_message; values_row sample_message]) true;
        CSV bad_file false; CSV no_file false],
     Some OSError).
Proof.
  apply (C1_failure_stops_later_sinks [] [CSV no_file false]
           [CSV (mk_file true [keys_row sample_message; values_row sample_message]) true]
           (CSV bad_file false) (CSV bad_file false) OSError [CSV no_file false]
           sample_message).
  - constructor; [reflexivity | constructor].
  - reflexivity.
Defined.

Lemma csv_rows_skip m ms : is_sentinel m = true -> csv_rows (m :: ms) = csv_rows ms.
Proof. intros Es. unfold csv_rows. cbn [List.filter]. rewrite Es. reflexivity. Qed.

Lemma csv_rows_first m ms :
  is_sentinel m = false ->
  csv_rows (m :: ms)
  = keys_row m :: values_row m
      :: List.map values_row (List.filter (fun m => negb (is_sentinel m)) ms).
Proof. intros Es. unfold csv_rows. cbn [List.filter]. rewrite Es. reflexivity. Qed.

(** [Repository().csv(f)] after a sequence of appends, from any state of its
    file. *)
Lemma csv_append_all ms : forall l rs hw,
  append_all (Deco (CSV (mk_file true rs) hw) (Base l)) ms
  = (Deco (CSV (mk_file true
                  (rs ++ if hw
                         then List.map values_row (List.filter (fun m => negb (is_sentinel m)) ms)
                         else csv_rows ms))
               (hw || List.existsb (fun m => negb (is_sentinel m)) ms))
       (Base (l ++ ms)), None).
Proof.
  induction ms as [|m ms IH]; intros l rs hw.
  - destruct hw; cbn; rewrite !app_nil_r; reflexivity.
  - cbn [append_all append handle]. unfold csv_handle. cbn [writable negb].
    cbn [List.filter List.existsb]. destruct (is_sentinel m) eqn:Es.
    + rewrite IH, <- app_assoc, (csv_rows_skip m ms Es). reflexivity.
    + rewrite (csv_rows_first m ms Es). destruct hw.
      * unfold add_rows. cbn [rows]. rewrite IH, <- !app_assoc. reflexivity.
      * unfold add_rows. cbn [rows]. rewrite IH, <- !app_assoc. reflexivity.
Qed.

(** Claim C7, counterexample: [Repository().csv(f)] receives a stop message
    and then an ordinary message. The stop message is skipped, and the next
    append still writes the header and a row to the file. *)
Lemma C7_write_after_sentinel :
  append_all (chain [] [CSV no_file false]) [sentinel_message; sample_message]
  = (chain [sentinel_message; sample_message]
       [CSV (mk_file true [keys_row sample_message; values_row sample_message]) true], None).
Proof. vm_compute. reflexivity. Qed.

(** Claim C7, as the code does it: the CSV sink has no stopped state. After
    any sequence of appends to [Repository().csv(f)] with [f] writable, the
    file holds the header followed by one row for every message whose data is
    not [None], in order, whether it came before or after a stop message; the
    stop messages leave no trace in it. *)
Theorem C7_csv_ignores_sentinels l ms :
  append_all (chain l [CSV no_file false]) ms
  = (chain (l ++ ms)
       [CSV (mk_file true (csv_rows ms)) (List.existsb (fun m => negb (is_sentinel m)) ms)],
     None).
Proof. unfold chain, chain_from. cbn [List.fold_left]. apply csv_append_all. Qed.



End RepoProofs.

(** ** The producer endpoints *)
Module ProducerProofs.
Import Json Msg Producers JsonProofs Samples.

(** Claim C5: with the flag clear and the 2048-byte buffer of
    [SMClientConnection], a message whose encoding has exactly 2048 bytes is
    written over the whole buffer and the flag is set; one with more bytes
    raises [MemoryError] and leaves buffer and flag as they were. *)
Theorem C5_capacity st d :
  new_data_flag st = x00 -> List.length (message_buf st) = 2048 ->
  (List.length (encode (to_json d)) = 2048 ->
   sm_send st d = (mk_sm x01 (encode (to_json d)), Returned PyNone))
  /\ (2048 < List.length (encode (to_json d)) ->
      sm_send st d = (st, Raised MemoryError)).
Proof.
  intros Hf Hl. unfold sm_send. rewrite Hf. cbv zeta. cbn [Byte.eqb negb].
  split; intros H.
  - rewrite Hl, H. replace (2048 <? 2048) with false by reflexivity.
    rewrite skipn_all2 by lia. rewrite app_nil_r. reflexivity.
  - rewrite Hl. apply Nat.ltb_lt in H. rewrite H. reflexivity.
Qed.

Lemma C5_capacity_witness :
  sm_send sm_init (padded_message 1994)
  = (mk_sm x01 (encode (to_json (padded_message 1994))), Returned PyNone)
  /\ sm_send sm_init (padded_message 1995) = (sm_init, Raised MemoryError).
Proof.
  split.
  - apply (proj1 (C5_capacity sm_init (padded_message 1994) eq_refl eq_refl)).
    vm_compute. reflexivity.
  - apply (proj2 (C5_capacity sm_init (padded_message 1995) eq_refl eq_refl)).
    apply Nat.ltb_lt. vm_compute. reflexivity.
Defined.






End ProducerProofs.

(** ** The socket consumer loop *)
Module ConsumerProofs.
Import Consumer.

(** Claim C9, counterexample: the thread starts reading, then the stop signal
    is set while it waits in [recv] and the peer sends nothing. Two steps
    later it is still waiting in [recv]. *)
Lemma C9_blocked_after_stop :
  run [(false, NoData); (true, NoData); (true, NoData)] AtTop [] = (Reading 0 0 [], []).
Proof. reflexivity. Qed.

(** Claim C9, as the code does it: [stop_event] is read only at the top of
    the loop. A thread waiting in [recv] stays there for any number of steps,
    whether the signal is set or not, as long as the peer neither sends nor
    closes; at the top of the loop a set signal ends it; a closed connection
    ends it with [RuntimeError]. *)
Theorem C9_stop_checked_only_at_top :
  (forall stop n o c chunks delivered,
     run (List.repeat (stop, NoData) n) (Reading o c chunks) delivered
     = (Reading o c chunks, delivered))
  /\ (forall ev delivered, step true ev AtTop delivered = (Exited, delivered))
  /\ (forall stop o c chunks delivered,
        step stop PeerClosed (Reading o c chunks) delivered = (Crashed RuntimeError, delivered)).
Proof.
  split; [|split]; [|reflexivity..].
  intros stop n o c chunks delivered. induction n as [|n IH]; [reflexivity|].
  exact IH.
Qed.

End ConsumerProofs.

(** ** [chop_json] on a balanced span *)
Module ChopExtra.
Import Chop Balance.
Local Open Scope Z_scope.

Lemma string_length_app s1 s2 :
  String.length (s1 ++ s2) = (String.length s1 + String.length s2)%nat.
Proof. induction s1 as [|c s1 IH]; simpl; [reflexivity | now rewrite IH]. Qed.

Lemma substring_app_l s1 s2 : substring 0 (String.length s1) (s1 ++ s2) = s1.
Proof. induction s1 as [|c s1 IH]; simpl; [destruct s2; reflexivity | now rewrite IH]. Qed.

Lemma substring_app_r s1 s2 n m :
  n = String.length s1 -> substring n m (s1 ++ s2) = substring 0 m s2.
Proof.
  intros ->. induction s1 as [|c s1 IH]; [reflexivity|]. simpl. exact IH.
Qed.

Lemma list_ascii_of_string_app s1 s2 :
  list_ascii_of_string (s1 ++ s2) = (list_ascii_of_string s1 ++ list_ascii_of_string s2)%list.
Proof. induction s1 as [|c s1 IH]; simpl; [reflexivity | now rewrite IH]. Qed.

Lemma length_list_ascii_of_string s :
  List.length (list_ascii_of_string s) = String.length s.
Proof. induction s as [|c s IH]; simpl; [reflexivity | now rewrite IH]. Qed.

(** Characters that are not braces move the loop on without changing its
    counts. *)
Lemma scan_no_braces pre : forall ind o c st en rest,
  List.forallb (fun ch => negb (is_brace ch)) (list_ascii_of_string pre) = true ->
  scan ind o c st en (pre ++ rest)
  = scan (ind + Z.of_nat (String.length pre)) o c st en rest.
Proof.
  induction pre as [|ch pre IH]; intros ind o c st en rest H.
  - simpl. rewrite Z.add_0_r. reflexivity.
  - simpl in H. apply andb_prop in H as [Hch H]. unfold is_brace in Hch.
    destruct (Ascii.eqb ch "{"%char) eqn:Eo, (Ascii.eqb ch "}"%char) eqn:Ec;
      try discriminate.
    simpl. rewrite Eo, Ec, IH by exact H. f_equal. lia.
Qed.

(** Inside a span opened at [st], the loop stops at the character that brings
    the depth back to [0], the last one of the span. *)
Lemma scan_balanced s : forall ind o c st en rest,
  0 <= st -> 1 <= o - c ->
  balanced_from (o - c) (list_ascii_of_string s) = true ->
  scan ind o c st en (s ++ rest) = (st, ind + Z.of_nat (String.length s) - 1).
Proof.
  induction s as [|ch s IH]; intros ind o c st en rest Hst Hd H; [discriminate|].
  simpl in H |- *. unfold depth_step in H.
  assert (Hst' : (if st <? 0 then ind else st) = st)
    by (destruct (Z.ltb_spec st 0); [lia | reflexivity]).
  destruct (Ascii.eqb ch "{"%char) eqn:Eo.
  - assert (Ec : Ascii.eqb ch "}"%char = false)
      by (apply Ascii.eqb_eq in Eo; subst; reflexivity).
    rewrite Ec, Hst'. destruct (Z.eqb_spec (o - c + 1) 0); [lia|].
    rewrite IH; [f_equal; lia | exact Hst | lia |].
    replace (o + 1 - c) with (o - c + 1) by lia. exact H.
  - destruct (Ascii.eqb ch "}"%char) eqn:Ec.
    + destruct (Z.eqb_spec (o - c - 1) 0) as [E0|E0].
      * destruct s; [|discriminate].
        replace (o =? c + 1) with true by (symmetry; apply Z.eqb_eq; lia).
        f_equal. simpl. lia.
      * replace (o =? c + 1) with false by (symmetry; apply Z.eqb_neq; lia).
        rewrite IH; [f_equal; lia | exact Hst | lia |].
        replace (o - (c + 1)) with (o - c - 1) by lia. exact H.
    + destruct (Z.eqb_spec (o - c) 0); [lia|].
      rewrite IH; [f_equal; lia | exact Hst | lia | exact H].
Qed.

Lemma chop_json_span pre obj post :
  List.forallb (fun ch => negb (is_brace ch)) (list_ascii_of_string pre) = true ->
  first_balanced (list_ascii_of_string obj) = true ->
  chop_json (pre ++ obj ++ post) = obj.
Proof.
  intros Hpre Hobj. unfold chop_json.
  destruct obj as [|ch r]; [discriminate|].
  simpl in Hobj. apply andb_prop in Hobj as [Ho Hr]. apply Ascii.eqb_eq in Ho. subst ch.
  rewrite scan_no_braces by exact Hpre. simpl.
  rewrite scan_balanced by (first [lia | exact Hr]).
  unfold py_slice, slice_bound.
  rewrite !string_length_app. simpl String.length. rewrite string_length_app.
  set (a := Z.of_nat (String.length pre)).
  assert (Ha : 0 <= a) by (unfold a; lia).
  replace (0 + a) with a by lia.
  replace (a + 1 + Z.of_nat (String.length r) - 1 + 1)
    with (a + Z.of_nat (S (String.length r))) by lia.
  destruct (Z.ltb_spec a 0); [lia|].
  destruct (Z.ltb_spec (a + Z.of_nat (S (String.length r))) 0); [lia|].
  rewrite !Z.min_l by (unfold a; lia).
  destruct (Z.ltb_spec a (a + Z.of_nat (S (String.length r)))); [|lia].
  rewrite substring_app_r by (unfold a; lia).
  replace (Z.to_nat (a + Z.of_nat (S (String.length r)) - a)) with (S (String.length r)) by lia.
  change (S (String.length r)) with (String.length (String "{"%char r)).
  exact (substring_app_l (String "{"%char r) post).
Qed.

(** A text that opens with a [{...}] span, after characters that are no
    braces, and goes on with anything: [chop_json] returns the span. *)
Theorem chop_json_balanced_span pre obj post :
  List.forallb (fun ch => negb (is_brace ch)) (list_ascii_of_string pre) = true ->
  first_balanced (list_ascii_of_string obj) = true ->
  chop_json (pre ++ obj ++ post) = obj.
Proof. exact (chop_json_span pre obj post). Qed.

Lemma chop_json_balanced_span_witness :
  chop_json ("ab " ++ "{a{b}c}" ++ "}x{")%string = "{a{b}c}"%string.
Proof. apply chop_json_balanced_span; reflexivity. Defined.

(** A slice that ends at index [0] is empty. *)
Lemma py_slice_to_0 j a : py_slice j a 0 = EmptyString.
Proof.
  unfold py_slice, slice_bound. simpl Z.ltb.
  destruct (Z.ltb_spec a 0);
    [destruct (Z.ltb_spec (Z.max 0 (Z.of_nat (String.length j) + a)) (Z.min 0 (Z.of_nat (String.length j))))
    | destruct (Z.ltb_spec (Z.min a (Z.of_nat (String.length j))) (Z.min 0 (Z.of_nat (String.length j))))];
    try reflexivity; lia.
Qed.

Lemma scan_no_close s : forall ind o c st en,
  List.forallb (fun ch => negb (Ascii.eqb ch "}"%char)) (list_ascii_of_string s) = true ->
  snd (scan ind o c st en s) = en.
Proof.
  induction s as [|ch s IH]; intros ind o c st en H; [reflexivity|].
  simpl in H |- *. apply andb_prop in H as [Hc H].
  destruct (Ascii.eqb ch "}"%char); [discriminate|]. apply IH, H.
Qed.

Lemma scan_no_open s : forall ind c st en, 0 <= c ->
  List.forallb (fun ch => negb (Ascii.eqb ch "{"%char)) (list_ascii_of_string s) = true ->
  scan ind 0 c st en s = (st, en).
Proof.
  induction s as [|ch s IH]; intros ind c st en Hc H; [reflexivity|].
  simpl in H |- *. apply andb_prop in H as [Ho H].
  destruct (Ascii.eqb ch "{"%char); [discriminate|].
  destruct (Ascii.eqb ch "}"%char).
  - replace (0 =? c + 1) with false by (symmetry; apply Z.eqb_neq; lia).
    apply IH; [lia | exact H].
  - apply IH; [lia | exact H].
Qed.

(** Without a ['{'], or without a ['}'], [chop_json] returns the empty
    string. *)
Theorem chop_json_without_braces j :
  List.forallb (fun ch => negb (Ascii.eqb ch "{"%char)) (list_ascii_of_string j) = true
  \/ List.forallb (fun ch => negb (Ascii.eqb ch "}"%char)) (list_ascii_of_string j) = true ->
  chop_json j = EmptyString.
Proof.
  intros H. unfold chop_json.
  destruct (scan 0 0 0 (-1) (-1) j) as [st en] eqn:E.
  assert (en = -1) as ->.
  { destruct H as [H | H].
    - rewrite scan_no_open in E by (first [lia | exact H]). congruence.
    - pose proof (scan_no_close j 0 0 0 (-1) (-1) H) as Hs. rewrite E in Hs. exact Hs. }
  apply py_slice_to_0.
Qed.

Lemma chop_json_without_braces_witness :
  chop_json "}garbage}"%string = EmptyString /\ chop_json "{garbage{"%string = EmptyString.
Proof.
  split; apply chop_json_without_braces; [left | right]; reflexivity.
Defined.

End ChopExtra.

(** ** What [json.dumps] writes: printable ASCII, with balanced braces *)
Module DumpsShape.
Import Json Balance JsonProofs.





















End DumpsShape.

(** ** The shared-memory channel: [SMClientConnection.send] against
    [SMServerConnection.run] *)
Module SMProofs.
Import Json Msg Repo Producers SMServer Chop Balance JsonProofs MsgProofs ChopExtra DumpsShape
  Samples.













(** When the consumer ends on an exception (a text [json.loads] rejects, or
    a sink that raises), the flag stays set: the shared memory is left as it
    was, and every later [SMClientConnection.send] waits for ever. The stop
    event plays no part once the consumer waits for the flag. *)
Theorem sm_crash_blocks_sender stop now st r e st' r' :
  sm_server_step stop now SMWaiting st r = Some (SMCrashed e, st', r') ->
  st' = st /\ new_data_flag st <> x00 /\ (forall d, sm_send st' d = (st', Waits)).
Proof.
  intros H. unfold sm_server_step in H.
  destruct (Byte.eqb (new_data_flag st) x00) eqn:Ef; [discriminate|].
  assert (Hflag : new_data_flag st <> x00) by (intros E; rewrite E in Ef; discriminate).
  assert (Hsend : forall d, sm_send st d = (st, Waits))
    by (intros d; unfold sm_send; rewrite Ef; reflexivity).
  destruct (decode_utf8 (message_buf st)) as [j|]; [|discriminate].
  destruct (from_json_str now (list_ascii_of_string (chop_json j))) as [msg|e0].
  - destruct (append r msg) as [r1 [e1|]]; inversion H; subst.
    split; [reflexivity | split; assumption].
  - inversion H; subst. split; [reflexivity | split; assumption].
Qed.

Lemma sm_crash_blocks_sender_witness :
  let st := fst (sm_send sm_init sample_message) in
  st = st /\ new_data_flag st <> x00 /\ (forall d, sm_send st d = (st, Waits)).
Proof.
  apply (sm_crash_blocks_sender true (str "2025") _ (Deco (CSV bad_file false) (Base []))
           OSError _ (Deco (CSV bad_file false) (Base [sample_message]))).
  vm_compute. reflexivity.
Defined.



End SMProofs.

(** ** The pipe channel *)
Module PipeProofs.
Import Json Msg Repo Producers PipeChannel SMProofs Samples.





End PipeProofs.

(** ** The sink chain over sequences of messages *)
Module RepoExtraProofs.
Import Json Msg Repo RepoExtra Samples.
Local Open Scope Z_scope.

(** Every [append] reaches the base [Repository] first: its list gets the
    message even when a sink of the chain raises afterwards. *)
Theorem append_reaches_base r m :
  message_list (fst (append r m)) = message_list r ++ [m].
Proof.
  induction r as [l | s inner IH]; [reflexivity|].
  cbn [append]. destruct (append inner m) as [inner' e]. cbn [fst] in IH.
  destruct e as [e|]; [exact IH|].
  destruct (handle s m) as [s' e']. exact IH.
Qed.

(** A [PlotRepository] never raises: over any sequence of messages its queue
    gets the JSON text of each message whose data is not [None], in order,
    and its stop event is set as soon as one message has data [None]. *)
Theorem plot_sink_sequence stop q l ms :
  append_all (Deco (Plot stop q) (Base l)) ms
  = (Deco (Plot (stop || List.existsb is_sentinel ms)
                (q ++ List.map to_json (List.filter (fun m => negb (is_sentinel m)) ms)))
          (Base (l ++ ms)), None).
Proof.
  revert stop q l. induction ms as [|m ms IH]; intros stop q l.
  - cbn. rewrite orb_false_r, !app_nil_r. reflexivity.
  - cbn [append_all append handle List.existsb List.filter]. unfold plot_handle.
    destruct (is_sentinel m); cbn [negb List.map orb].
    + rewrite IH, orb_true_r, <- app_assoc. reflexivity.
    + rewrite IH, <- !app_assoc. reflexivity.
Qed.



(** A [CSVRepository] that has stored one message can no longer be
    iterated: the header and the row are in its file, and [__iter__] raises
    [AttributeError] on the row. So the last loop of [main.py],
    [for m in logger], raises once a sensor message was logged. *)
Theorem csv_iter_after_store f inner inner' m :
  writable f = true -> is_sentinel m = false ->
  append inner m = (inner', None) ->
  exists f',
    append (Deco (CSV f false) inner) m = (Deco (CSV f' true) inner', None)
    /\ csv_iter f' = Some (Exc AttributeError).
Proof.
  intros Hw Hs Happ. cbn [append]. rewrite Happ. cbn [handle].
  unfold csv_handle. rewrite Hs, Hw. cbn [negb].
  eexists. split; [reflexivity|].
  unfold csv_iter, add_rows. cbn [writable rows]. rewrite Hw. cbn [negb].
  destruct (rows f) as [|r0 [|r1 rs]]; reflexivity.
Qed.

Lemma csv_iter_after_store_witness :
  exists f',
    append (Deco (CSV no_file false) (Deco (SQL (mk_db true []) false 0) (Base []))) sample_message
    = (Deco (CSV f' true) (Deco (SQL (mk_db true [(0, values_row sample_message)]) true 1)
                                (Base [sample_message])), None)
    /\ csv_iter f' = Some (Exc AttributeError).
Proof. apply csv_iter_after_store; reflexivity. Defined.

End RepoExtraProofs.

(** ** [Message.from_json] on any [Message] *)
Module MsgExtraProofs.
Import Json Msg JsonProofs MsgProofs Samples.









End MsgExtraProofs.

(** ** The sensor loop *)
Module SensorProofs.
Import Json Msg Repo Producers SensorRun PipeChannel SMProofs PipeProofs Samples.

Lemma sensor_run_calls {C} (ia : C -> bool) se cl ticks : forall msg c calls,
  match sensor_run ia se cl ticks msg c calls with
  | (e, _, _, calls') => exists extra, calls' = calls ++ extra /\ (In CClose extra <-> e = SStopped)
  end.
Proof.
  induction ticks as [|[[stop v] now] ticks IH]; intros msg c calls; cbn [sensor_run].
  - exists []. rewrite app_nil_r. split; [reflexivity|]. split; [intros []|discriminate].
  - destruct stop.
    + exists [CClose]. split; [reflexivity|]. split; [reflexivity | intros _; left; reflexivity].
    + destruct (negb (ia c)).
      * exists []. rewrite app_nil_r. split; [reflexivity|]. split; [intros []|discriminate].
      * destruct (se c (set_data now msg v None)) as [c' [r|e|]].
        -- specialize (IH (set_data now msg v None) c' (calls ++ [CSend (set_data now msg v None)])).
           destruct (sensor_run ia se cl ticks _ c' _) as [[[e m'] c''] calls'].
           destruct IH as [extra [-> Hx]].
           exists (CSend (set_data now msg v None) :: extra). rewrite <- app_assoc. split; [reflexivity|].
           rewrite <- Hx. split; [intros [H|H]; [discriminate | exact H] | intros H; right; exact H].
        -- exists [CSend (set_data now msg v None)]. split; [reflexivity|].
           split; [intros [H|[]]; discriminate | discriminate].
        -- exists [CSend (set_data now msg v None)]. split; [reflexivity|].
           split; [intros [H|[]]; discriminate | discriminate].
Qed.

(** [Sensor.run] closes its connection if and only if it leaves its loop on
    the stop event: when it leaves because the connection is no longer
    available, or because [send] raised, the connection stays open. *)
Theorem sensor_closes_iff_stopped {C} (ia : C -> bool) se cl ticks msg c :
  match sensor_run ia se cl ticks msg c [] with
  | (e, _, _, calls) => In CClose calls <-> e = SStopped
  end.
Proof.
  pose proof (sensor_run_calls ia se cl ticks msg c []) as H.
  destruct (sensor_run ia se cl ticks msg c []) as [[[e m'] c'] calls].
  destruct H as [extra [-> Hx]]. exact Hx.
Qed.

Lemma sensor_run_readings {C} (ia : C -> bool) se cl (Inv : C -> Prop) :
  (forall c, Inv c -> ia c = true) ->
  (forall c m, Inv c -> exists c' v, se c m = (c', Returned v) /\ Inv c') ->
  forall readings rest msg c calls, Inv c ->
  exists c',
    sensor_run ia se cl (List.map (fun r => (false, fst r, snd r)) readings ++ rest) msg c calls
    = sensor_run ia se cl rest
        (List.fold_left (fun m r => set_data (snd r) m (fst r) None) readings msg) c'
        (calls ++ List.map (fun r => CSend (mk_message (id msg) (name msg) (fst r) (JStr (snd r))))
                           readings)
    /\ Inv c'.
Proof.
  intros Hia Hse readings. induction readings as [|[v now] readings IH];
    intros rest msg c calls Hc.
  - exists c. rewrite app_nil_r. split; [reflexivity | exact Hc].
  - cbn [List.map List.app sensor_run fst snd]. rewrite Hia by exact Hc. cbn [negb].
    destruct (Hse c (set_data now msg v None) Hc) as (c1 & r & -> & Hc1).
    destruct (IH rest (set_data now msg v None) c1 (calls ++ [CSend (set_data now msg v None)]) Hc1)
      as (c' & E & Hc').
    exists c'. split; [|exact Hc'].
    rewrite E. cbn [List.fold_left fst snd]. rewrite <- app_assoc. reflexivity.
Qed.

(** On a connection that stays available and whose [send] returns, each
    pass of [Sensor.run] sends the sensor's [id] and [name] with the value
    of the probe and the time of that pass, in order, and nothing else. *)
Theorem sensor_sends_readings {C} (ia : C -> bool) se cl (Inv : C -> Prop) readings msg c :
  (forall c, Inv c -> ia c = true) ->
  (forall c m, Inv c -> exists c' v, se c m = (c', Returned v) /\ Inv c') ->
  Inv c ->
  match sensor_run ia se cl (List.map (fun r => (false, fst r, snd r)) readings) msg c [] with
  | (e, _, _, calls) =>
      e = SRunning
      /\ calls = List.map (fun r => CSend (mk_message (id msg) (name msg) (fst r) (JStr (snd r))))
                          readings
  end.
Proof.
  intros Hia Hse Hc.
  destruct (sensor_run_readings ia se cl Inv Hia Hse readings [] msg c [] Hc) as (c' & E & _).
  rewrite app_nil_r in E. rewrite E. split; reflexivity.
Qed.

Lemma sensor_sends_readings_witness :
  match sensor_run (fun _ => true) pipe_client_send pipe_client_close
          (List.map (fun r => (false, fst r, snd r)) [(JInt 5, str "t1"); (JInt (-7), str "t2")])
          sample_message (mk_pipe [] true) [] with
  | (e, _, _, calls) =>
      e = SRunning
      /\ calls = List.map (fun r => CSend (mk_message (JInt 0) (JStr (str "Sensor-1")) (fst r)
                                                      (JStr (snd r))))
                          [(JInt 5, str "t1"); (JInt (-7), str "t2")]
  end.
Proof.
  apply (sensor_sends_readings (fun _ => true) pipe_client_send pipe_client_close
           (fun p => client_open p = true)).
  - intros; reflexivity.
  - intros p m Hp. unfold pipe_client_send. rewrite Hp.
    eexists _, _. split; reflexivity.
  - reflexivity.
Defined.




End SensorProofs.

(** ** [ClientConnection.send] over partial sends *)
Module ClientProofs.
Import Json Msg Producers Samples.

Lemma send_loop_accepted st ns : forall remaining,
  Forall (fun n => 0 < n) ns -> remaining <= list_sum ns ->
  send_loop st remaining (List.map Ret ns) = (st, Returned (PyBool true)).
Proof.
  induction ns as [|n ns IH]; intros remaining Hpos Hle.
  - cbn in Hle. replace remaining with 0 by lia. reflexivity.
  - inversion Hpos as [|? ? Hn Hpos']; subst.
    change (list_sum (n :: ns)) with (n + list_sum ns) in Hle.
    cbn [send_loop List.map].
    destruct (Nat.eqb_spec remaining 0); [reflexivity|].
    destruct (Nat.eqb_spec n 0); [lia|].
    apply IH; [exact Hpos' | lia].
Qed.

(** When the connection can be made and every [self.sckt.send] takes at
    least one byte, [ClientConnection.send] goes on sending the rest until
    the whole encoded message is out, then returns [True]; the client is
    connected and stays available. *)
Theorem client_send_partial_sends st ns d :
  Forall (fun n => 0 < n) ns ->
  List.length (encode (to_json d)) <= list_sum ns ->
  client_send st None (List.map Ret ns) d
  = (mk_client true (available st), Returned (PyBool true)).
Proof.
  intros Hpos Hle. destruct st as [conn av]. unfold client_send. cbn [connected available].
  destruct conn; apply send_loop_accepted; assumption.
Qed.

Lemma client_send_partial_sends_witness :
  client_send (mk_client false true) None (List.map Ret [10; 20; 40]) sample_message
  = (mk_client true true, Returned (PyBool true)).
Proof.
  apply (client_send_partial_sends (mk_client false true) [10; 20; 40] sample_message).
  - repeat (apply Forall_cons; [lia |]). apply Forall_nil.
  - apply Nat.leb_le. vm_compute. reflexivity.
Defined.

End ClientProofs.
